(** * nbrmd.cell_to_text: exporting notebook cells as text

    A shallow embedding of [nbrmd/cell_to_text.py] and the properties of
    its per-cell encoders: line splitting ([cell_source]), the three
    format encoders ([code_to_rmd], [code_to_r], [code_to_py]), the
    end-of-cell marker allocation ([py_endofcell_marker]) and the
    [CellExporter] class.

    Conventions.
    - A Python [str] is a [string]; a character is a code point below 256
      (the two line separators U+2028 and U+2029 are outside this type).
    - A [dict] is a [gmap string value]; a method that mutates
      [self.metadata] returns the mapping it leaves behind, next to its
      Python return value.
    - A Python exception is a constructor of [result].
    - The functions that the module imports from its sibling modules
      ([filter_metadata], [is_active], [code_to_cell], ...) are the fields of
      the class [Collaborators], over which the encoders are generic. *)

From Stdlib Require Import Ascii String ZArith Lia.
From Equations Require Import Equations.
From stdpp Require Import base option list strings gmap fin_maps.

Local Open Scope Z_scope.

(* literal prefixes such as "# " reduce under [simpl] *)
#[local] Arguments String.append !_ _ / : simpl nomatch.
#[local] Arguments Ascii.eqb : simpl never.
#[local] Arguments String.eqb : simpl never.

(** ** Characters and string primitives *)

Definition LF : ascii := "010"%char.
Definition CR : ascii := "013"%char.

(** [str.splitlines] breaks a line at LF, VT, FF, CR, FS, GS, RS and NEL;
    CR immediately followed by LF is one break. *)
Definition is_linebreak (c : ascii) : bool :=
  match nat_of_ascii c with
  | 10 | 11 | 12 | 13 | 28 | 29 | 30 | 133 => true
  | _ => false
  end%nat.

(** The class [\s] of the [re] module on [str] patterns. *)
Definition is_space (c : ascii) : bool :=
  match nat_of_ascii c with
  | 9 | 10 | 11 | 12 | 13 | 28 | 29 | 30 | 31 | 32 | 133 | 160 => true
  | _ => false
  end%nat.

Fixpoint string_forallb (p : ascii -> bool) (s : string) : bool :=
  match s with
  | EmptyString => true
  | String c s' => p c && string_forallb p s'
  end.

(** [strip_prefix p s] is [Some r] exactly when [s = p +:+ r]. *)
Fixpoint strip_prefix (p s : string) : option string :=
  match p with
  | EmptyString => Some s
  | String a p' =>
      match s with
      | String b s' => if Ascii.eqb a b then strip_prefix p' s' else None
      | EmptyString => None
      end
  end.

(** [s.startswith(p)] *)
Definition startswith (s p : string) : bool :=
  match strip_prefix p s with Some _ => true | None => false end.

(** [s.endswith(suffix)] *)
Fixpoint endswith (s suffix : string) : bool :=
  String.eqb s suffix ||
  match s with
  | EmptyString => false
  | String _ s' => endswith s' suffix
  end.

(** [s.splitlines()]: the lines of [s] without their line breaks; a break
    at the very end of [s] opens no further line. *)
Fixpoint splitlines (s : string) : list string :=
  match s with
  | EmptyString => []
  | String c s' =>
      if is_linebreak c then
        EmptyString ::
          (if Ascii.eqb c CR then
             match s' with
             | String d s'' => if Ascii.eqb d LF then splitlines s'' else splitlines s'
             | EmptyString => splitlines s'
             end
           else splitlines s')
      else
        match splitlines s' with
        | [] => [String c EmptyString]
        | l :: ls => String c l :: ls
        end
  end.

(** [sep.join(lines)] *)
Fixpoint join (sep : string) (lines : list string) : string :=
  match lines with
  | [] => EmptyString
  | [l] => l
  | l :: ls => l +:+ sep +:+ join sep ls
  end.

(** ** Data model *)

(** Metadata values: what a notebook's JSON can hold. *)
#[local] Set Warnings "-register-all".
Inductive value : Type :=
| VNone
| VBool (b : bool)
| VInt (n : Z)
| VStr (s : string)
| VList (l : list value)
| VDict (d : list (string * value)).

Inductive CellType : Type := code | markdown | raw.

Record Cell : Type := mkCell {
  c_cell_type : CellType;
  c_source : string;
  c_metadata : gmap string value
}.

(** ** [cell_source] *)

Definition cell_source (cell : Cell) : list string :=
  let source := c_source cell in
  if String.eqb source EmptyString then [EmptyString]
  else if endswith source (String LF EmptyString) then splitlines source ++ [EmptyString]
  else splitlines source.

(** ** [py_endofcell_marker] *)

(** The tokens the allocator goes through: [dashes n] is n times '-'. *)
Fixpoint dashes (n : nat) : string :=
  match n with
  | O => EmptyString
  | S n' => String "-" (dashes n')
  end.

(** [re.compile(r'^#( )' + endofcell + r'\s*$').match(line)]: the line is
    '#', one space and the token, followed by white space only. The tokens
    are runs of '-', which the pattern reads literally; a final '\n', where
    '$' may match early, is white space. *)
Definition endofcell_re_match (endofcell line : string) : bool :=
  match strip_prefix ("# " +:+ endofcell) line with
  | Some rest => string_forallb is_space rest
  | None => false
  end.

(** The loop [while True: ...] with a budget of [fuel] tests: [None] when
    the budget is used up before the loop returns. *)
Fixpoint py_endofcell_marker_loop (fuel : nat) (source : list string)
    (endofcell : string) : option string :=
  match fuel with
  | O => None
  | S fuel' =>
      match List.filter (endofcell_re_match endofcell) source with
      | _ :: _ => py_endofcell_marker_loop fuel' source (endofcell +:+ "-")
      | [] => Some endofcell
      end
  end.

(** Termination measure of the loop: the lines that collide with the
    token or with a longer one. *)
Fixpoint drop_dashes (s : string) : string :=
  match s with
  | String c s' => if Ascii.eqb c "-" then drop_dashes s' else s
  | EmptyString => s
  end.

Definition marker_line_from (endofcell line : string) : bool :=
  match strip_prefix ("# " +:+ endofcell) line with
  | Some rest => string_forallb is_space (drop_dashes rest)
  | None => false
  end.

Definition pending (source : list string) (endofcell : string) : nat :=
  length (List.filter (marker_line_from endofcell) source).

(** The lines of [source] that collide with some token of the sequence. *)
Definition colliding_lines (source : list string) : nat := pending source "-".

Lemma strip_prefix_app p q s :
  strip_prefix (p +:+ q) s = strip_prefix p s ≫= strip_prefix q.
Proof.
  revert s; induction p as [|a p IH]; intros s; simpl; [done|].
  destruct s as [|b s]; [done|]. destruct (Ascii.eqb a b); [apply IH | done].
Qed.

Lemma strip_prefix_Some p s r : strip_prefix p s = Some r <-> s = p +:+ r.
Proof.
  revert s; induction p as [|a p IH]; intros s; simpl.
  - split; [by intros [= ->] | by intros ->].
  - destruct s as [|b s]; [split; discriminate|].
    destruct (Ascii.eqb_spec a b) as [->|Hne].
    + rewrite IH. split; [by intros -> | by intros [= ->]].
    + split; [discriminate | by intros [= ? ?]].
Qed.

Lemma app_assoc_string (a b c : string) : (a +:+ b) +:+ c = a +:+ (b +:+ c).
Proof. induction a as [|x a IH]; simpl; [done | by rewrite IH]. Qed.

Lemma strip_prefix_grow endofcell line :
  strip_prefix ("# " +:+ (endofcell +:+ "-")) line =
  strip_prefix ("# " +:+ endofcell) line ≫= strip_prefix "-".
Proof. rewrite <- app_assoc_string. apply strip_prefix_app. Qed.

Lemma drop_dashes_space rest :
  string_forallb is_space rest = true -> drop_dashes rest = rest.
Proof.
  destruct rest as [|c rest]; simpl; [done|].
  destruct (Ascii.eqb_spec c "-") as [->|_]; [discriminate | done].
Qed.

Lemma marker_line_from_grow endofcell line :
  marker_line_from (endofcell +:+ "-") line = true ->
  marker_line_from endofcell line = true.
Proof.
  unfold marker_line_from. rewrite strip_prefix_grow.
  destruct (strip_prefix ("# " +:+ endofcell) line) as [rest|]; simpl; [|done].
  destruct rest as [|c rest]; simpl; [done|].
  rewrite (Ascii.eqb_sym c).
  destruct (Ascii.eqb "-" c); [done | discriminate].
Qed.

Lemma endofcell_re_match_pending endofcell line :
  endofcell_re_match endofcell line = true ->
  marker_line_from endofcell line = true /\
  marker_line_from (endofcell +:+ "-") line = false.
Proof.
  unfold endofcell_re_match, marker_line_from. rewrite strip_prefix_grow.
  destruct (strip_prefix ("# " +:+ endofcell) line) as [rest|]; simpl; [|done].
  intros Hsp. rewrite (drop_dashes_space _ Hsp). split; [done|].
  destruct rest as [|c rest]; simpl in *; [done|].
  destruct (Ascii.eqb_spec "-" c) as [<-|_]; [discriminate | done].
Qed.

Lemma filter_length_lt {A} (p q : A -> bool) (l : list A) :
  (forall x, q x = true -> p x = true) ->
  (exists x, In x l /\ p x = true /\ q x = false) ->
  (length (List.filter q l) < length (List.filter p l))%nat.
Proof.
  intros Hqp (x & Hin & Hp & Hq).
  assert (Hle : forall l', (length (List.filter q l') <= length (List.filter p l'))%nat).
  { induction l' as [|y l' IH]; simpl; [lia|].
    destruct (q y) eqn:Hy; [rewrite (Hqp _ Hy); simpl; lia|].
    destruct (p y); simpl; lia. }
  induction l as [|y l IH]; simpl in *; [done|].
  destruct Hin as [->|Hin].
  - rewrite Hp, Hq. simpl. specialize (Hle l). lia.
  - specialize (IH Hin). destruct (q y) eqn:Hy; [rewrite (Hqp _ Hy); simpl; lia|].
    destruct (p y); simpl; lia.
Qed.

Lemma pending_grow source endofcell :
  List.filter (endofcell_re_match endofcell) source <> [] ->
  (pending source (endofcell +:+ "-") < pending source endofcell)%nat.
Proof.
  intros Hne. apply filter_length_lt.
  - intros line. apply marker_line_from_grow.
  - destruct (List.filter (endofcell_re_match endofcell) source) as [|line ls] eqn:Hf; [done|].
    assert (Hin : In line (List.filter (endofcell_re_match endofcell) source))
      by (rewrite Hf; left; reflexivity).
    apply filter_In in Hin as [Hin Hm].
    exists line. split; [done|]. by apply endofcell_re_match_pending.
Qed.

(** The loop itself, from any token: total, by the measure [pending]. *)
Equations? py_endofcell_marker_from (source : list string) (endofcell : string) : string
  by wf (pending source endofcell) lt :=
  py_endofcell_marker_from source endofcell
    with Logic.inspect (List.filter (endofcell_re_match endofcell) source) := {
    | exist _ [] _ => endofcell
    | exist _ (_ :: _) Hcollide => py_endofcell_marker_from source (endofcell +:+ "-") }.
Proof. apply pending_grow. by rewrite Hcollide. Qed.

Definition py_endofcell_marker (source : list string) : string :=
  py_endofcell_marker_from source "-".

(** ** Results of calls that may raise *)

Inductive result (A : Type) : Type :=
| Ok (a : A)
| KeyError (key : string).
Arguments Ok {A} a.
Arguments KeyError {A} key.

(** ** The exporter object

    The attributes of [self]; [Self.source self] is [self.source] where a
    parameter is called [source] too. *)

Module Self.
Record CellExporter : Type := mkCellExporter {
  ext : string;
  cell_type : CellType;
  source : list string;
  metadata : gmap string value;
  language : string;
  padlines : Z;
  skiplines : Z
}.
End Self.
Export Self.

Definition set_metadata (self : CellExporter) (m : gmap string value) : CellExporter :=
  mkCellExporter (ext self) (cell_type self) (source self) m
                 (language self) (padlines self) (skiplines self).

(** What the module imports from its siblings [languages], [cells],
    [cell_metadata] and [magics], and the builtin [repr]. [cell_language]
    and [escape_magic] get the list object itself and may change it in
    place: here they return the list they leave, [cell_language] next to
    the language it finds. [code_to_cell] returns a pair, of which the
    exporter reads the second component, the number of lines the reader
    takes for the cell. *)
Class Collaborators : Type := {
  cell_language : list string -> option string * list string;
  code_to_cell : CellExporter -> list string -> bool -> Cell * Z;
  filter_metadata : gmap string value -> gmap string value;
  is_active : string -> gmap string value -> bool;
  metadata_to_rmd_options : option string -> gmap string value -> string;
  metadata_to_json_options : gmap string value -> string;
  escape_magic : list string -> string -> list string;
  py_repr : value -> string
}.

(** ** Python idioms *)

(** [key in d] *)
Definition has_key (key : string) (d : gmap string value) : bool :=
  match d !! key with Some _ => true | None => false end.

(** truth value of a [str] *)
Definition truthy (s : string) : bool :=
  match s with EmptyString => false | String _ _ => true end.

(** [d.get(key, default)] for the two entries that count lines. They are
    integers ([bool] is a subtype of [int]); the exporter gives no meaning
    to an entry of another shape, which reads as the default here. *)
Definition get_int (key : string) (default : Z) (d : gmap string value) : Z :=
  match d !! key with
  | Some (VInt n) => n
  | Some (VBool b) => Z.b2z b
  | _ => default
  end.

(** [a or b] on an optional string and a string *)
Definition or_else (a : option string) (b : string) : string :=
  match a with
  | Some s => if truthy s then s else b
  | None => b
  end.

(** ['{}'.format(v)]: a [str] is inserted as it is, any other value by its
    [repr]. *)
Definition format_value `{Collaborators} (v : value) : string :=
  match v with
  | VStr s => s
  | _ => py_repr v
  end.

(** [v == s] for a string literal [s] *)
Definition value_is_str (v : value) (s : string) : bool :=
  match v with
  | VStr s' => String.eqb s' s
  | _ => false
  end.

(** ['# ' + line if line else '#'] *)
Definition hash_comment (line : string) : string :=
  if truthy line then "# " +:+ line else "#".

(** ["#' " + line if line else "#'"] *)
Definition roxygen_comment (line : string) : string :=
  if truthy line then "#' " +:+ line else "#'".

(** ** The format encoders *)

Section Encoders.
Context `{Collaborators}.

Definition code_to_rmd (source : list string) (metadata : gmap string value)
    (language : string) : list string * gmap string value :=
  let metadata :=
    if is_active "Rmd" metadata then metadata
    else <["eval" := VBool false]> metadata in
  let options := metadata_to_rmd_options (Some language) metadata in
  (["```{" +:+ options +:+ "}"] ++ source ++ ["```"], metadata).

Definition code_to_r (source : list string) (metadata : gmap string value)
    : list string * gmap string value :=
  let metadata :=
    if is_active "R" metadata then metadata
    else <["eval" := VBool false]> metadata in
  let options := metadata_to_rmd_options None metadata in
  ((if truthy options then ["#+ " +:+ options] else []) ++ source, metadata).

Definition code_to_py (source : list string) (metadata : gmap string value)
    (padlines : Z) : result (list string * gmap string value) :=
  if decide (metadata = ∅) then Ok (source, metadata)
  else
    match metadata !! "endofcell" with
    | None => KeyError "endofcell"
    | Some endofcell =>
        let metadata :=
          if value_is_str endofcell "-" then delete "endofcell" metadata
          else metadata in
        let options := metadata_to_json_options metadata in
        Ok (["# + " +:+ options] ++ source
              ++ replicate (Z.to_nat padlines) EmptyString
              ++ ["# " +:+ format_value endofcell],
            metadata)
    end.

(** ** class [CellExporter] *)

Definition __init__ (cell : Cell) (default_language ext : string) : CellExporter :=
  let source := cell_source cell in
  let metadata := filter_metadata (c_metadata cell) in
  let detected := cell_language source in
  let language := or_else (fst detected) default_language in
  let source := snd detected in
  let padlines := get_int "padlines" 0 (c_metadata cell) in
  let skiplines := get_int "skiplines" 1 (c_metadata cell) in
  let skiplines :=
    if has_key "skipline" (c_metadata cell) then skiplines + 1 else skiplines in
  let skiplines :=
    if has_key "noskipline" (c_metadata cell) then skiplines - 1 else skiplines in
  let metadata :=
    match c_cell_type cell with
    | raw =>
        if has_key "active" metadata then metadata
        else <["active" := VStr EmptyString]> metadata
    | _ => metadata
    end in
  mkCellExporter ext (c_cell_type cell) source metadata language padlines skiplines.

Definition is_code (self : CellExporter) : bool :=
  match cell_type self with
  | code => true
  | raw => has_key "active" (metadata self)
  | markdown => false
  end.

Definition markdown_escape (self : CellExporter) (source : list string) : list string :=
  if decide (ext self = ".Rmd") then source
  else if decide (ext self = ".R") then map roxygen_comment source
  else map hash_comment source.

Definition explicit_start_marker (self : CellExporter) (source : list string) : bool :=
  if decide (metadata self <> ∅) then true
  else if forallb (fun line => startswith line "#") (Self.source self) then true
  else if negb (Z.eqb (snd (code_to_cell self source false))
                      (Z.of_nat (length source))) then true
  else false.

(** Lines 153 to 159 of [code_to_text]: whether the cell is exported
    active, and the metadata left behind. *)
Definition resolve_active (self : CellExporter) : bool * gmap string value :=
  let active := is_active (ext self) (metadata self) in
  if decide (ext self = ".R" \/ ext self = ".py") then
    if active && negb (String.eqb (language self)
                         (if decide (ext self = ".R") then "R" else "python"))
    then (false,
          <["language" := VStr (language self)]>
            (<["active" := VStr "ipynb"]> (metadata self)))
    else (active, metadata self)
  else (active, metadata self).

Definition code_to_text (self : CellExporter)
    : result (list string * gmap string value) :=
  let '(active, metadata) := resolve_active self in
  let self := set_metadata self metadata in
  let source := Self.source self in
  let source := if active then escape_magic source (language self) else source in
  if decide (ext self = ".Rmd") then Ok (code_to_rmd source metadata (language self))
  else
    let source := if active then source else map hash_comment source in
    if decide (ext self = ".R") then Ok (code_to_r source metadata)
    else
      let metadata :=
        if explicit_start_marker self source
        then <["endofcell" := VStr (py_endofcell_marker source)]> metadata
        else metadata in
      code_to_py source metadata (padlines self).

Definition cell_to_text (self : CellExporter)
    : result (list string * gmap string value) :=
  if is_code self then code_to_text self
  else Ok (markdown_escape self (source self), metadata self).

End Encoders.

(** ** A sample environment

    Stand-ins for the imported functions, to evaluate the encoders on
    concrete cells: no metadata filtering, a cell active unless its
    metadata names the key 'active', a reader that takes every line. *)
Definition sample_options (metadata : gmap string value) : string :=
  join ", " (map fst (map_to_list metadata)).

Definition sample_collaborators : Collaborators := {|
  cell_language := fun source => (None, source);
  code_to_cell := fun self source _ =>
    (mkCell code (join (String LF EmptyString) source) (metadata self),
     Z.of_nat (length source));
  filter_metadata := fun m => m;
  is_active := fun _ m => negb (has_key "active" m);
  metadata_to_rmd_options := fun language m =>
    match language with
    | Some l => l +:+ " " +:+ sample_options m
    | None => sample_options m
    end;
  metadata_to_json_options := fun m => "{" +:+ sample_options m +:+ "}";
  escape_magic := fun source _ => source;
  py_repr := fun _ => "<repr>"
|}.




(** ** The inverse the specification names for [markdown_escape]:
    stripping the fixed prefix (the comment marker and, where there is one,
    the space after it). It is not part of the module. *)
Definition strip_comment (marker line : string) : string :=
  match strip_prefix (marker +:+ " ") line with
  | Some rest => rest
  | None =>
      match strip_prefix marker line with
      | Some rest => rest
      | None => line
      end
  end.

Definition markdown_unescape (ext : string) (lines : list string) : list string :=
  if decide (ext = ".Rmd") then lines
  else if decide (ext = ".R") then map (strip_comment "#'") lines
  else map (strip_comment "#") lines.

(** ** Vocabulary of the statements *)

(** The source has no line break other than LF. *)
Definition only_lf_breaks (s : string) : bool :=
  string_forallb (fun c => implb (is_linebreak c) (Ascii.eqb c LF)) s.

(** The pattern of the allocator, as the specification words it: '#', one
    space, the token, then white space only. *)
Definition marker_pattern (token line : string) : Prop :=
  exists ws, line = "# " +:+ token +:+ ws /\ string_forallb is_space ws = true.

(** Sample cells. *)
Definition r_cell_in_py : CellExporter :=
  mkCellExporter ".py" code ["%%R"; "ls()"] ∅ "R" 0 1.

Definition commented_cell : CellExporter :=
  mkCellExporter ".py" code ["# a comment"; "#!shebang"] ∅ "python" 0 1.

Definition front_matter : Cell :=
  mkCell raw ("---" +:+ String LF "title: Simple file" +:+ String LF "---") ∅.

(** A line without any line break character. *)
Definition no_linebreak (line : string) : bool :=
  string_forallb (fun c => negb (is_linebreak c)) line.

(** The number of line feeds of a string. *)
Fixpoint count_lf (s : string) : nat :=
  match s with
  | EmptyString => 0
  | String c s' => (if Ascii.eqb c LF then 1 else 0) + count_lf s'
  end%nat.

(** The source lines as [code_to_text] hands them to the encoders of the
    script formats: magic-escaped for an active cell, commented out for an
    inactive one. *)
Definition script_body `{Collaborators} (self : CellExporter) : list string :=
  if fst (resolve_active self)
  then escape_magic (source self) (language self)
  else map hash_comment (source self).

(** The keys of the metadata that the encoders may write or delete. *)
Definition encoder_keys : list string := ["active"; "language"; "endofcell"; "eval"].

Definition tagged_cell : CellExporter :=
  mkCellExporter ".py" code ["x = 1"; "# -"; EmptyString; "y = 2"]
    {[ "tags" := VList [VStr "parameters"] ]} "python" 1 1.

Definition frozen_cell : CellExporter :=
  mkCellExporter ".R" code ["ls()"; EmptyString; "x"]
    {[ "active" := VStr "ipynb" ]} "R" 0 1.

Definition text_cell : CellExporter :=
  mkCellExporter ".py" markdown ["A title"; EmptyString; "text"] ∅ "python" 0 1.

Definition chunk : CellExporter :=
  mkCellExporter ".Rmd" code ["%%R"; "ls()"] {[ "echo" := VBool true ]} "R" 0 1.
(** *** The loop, unfolded once *)

Lemma py_endofcell_marker_from_step source endofcell :
  py_endofcell_marker_from source endofcell =
  match List.filter (endofcell_re_match endofcell) source with
  | _ :: _ => py_endofcell_marker_from source (endofcell +:+ "-")
  | [] => endofcell
  end.
Proof.
  funelim (py_endofcell_marker_from source endofcell).
  - by rewrite e.
  - by rewrite Hcollide.
Qed.

Lemma py_endofcell_marker_loop_sound fuel source endofcell token :
  py_endofcell_marker_loop fuel source endofcell = Some token ->
  py_endofcell_marker_from source endofcell = token.
Proof.
  revert endofcell; induction fuel as [|fuel IH]; intros endofcell; simpl; [done|].
  rewrite py_endofcell_marker_from_step.
  destruct (List.filter (endofcell_re_match endofcell) source); [by intros [= ->] | apply IH].
Qed.

Lemma py_endofcell_marker_loop_complete fuel source endofcell :
  (pending source endofcell < fuel)%nat ->
  py_endofcell_marker_loop fuel source endofcell =
  Some (py_endofcell_marker_from source endofcell).
Proof.
  revert endofcell; induction fuel as [|fuel IH]; intros endofcell Hlt; [lia|].
  simpl. rewrite py_endofcell_marker_from_step.
  pose proof (pending_grow source endofcell) as Hgrow.
  destruct (List.filter (endofcell_re_match endofcell) source); [done|].
  apply IH. specialize (Hgrow ltac:(done)). lia.
Qed.

(** * Properties *)

(** ** Line splitting *)

Lemma endswith_spec s suffix :
  endswith s suffix = true <-> exists p, s = p +:+ suffix.
Proof.
  induction s as [|c s IH]; simpl.
  - rewrite orb_false_r, String.eqb_eq. split.
    + intros <-. by exists EmptyString.
    + intros ([|? ?] & Hp); simpl in Hp; [done | discriminate].
  - rewrite orb_true_iff, String.eqb_eq, IH. split.
    + intros [<- | (p & ->)]; [by exists EmptyString | by exists (String c p)].
    + intros ([|d p] & Hp); simpl in Hp; [by left | right].
      injection Hp as -> ->. by exists p.
Qed.

Lemma splitlines_nonempty c s : splitlines (String c s) <> [].
Proof.
  simpl. destruct (is_linebreak c); [done|]. by destruct (splitlines s).
Qed.

Lemma cell_source_inv cell : exists l ls, cell_source cell = l :: ls.
Proof.
  unfold cell_source. destruct (c_source cell) as [|c s]; cbv zeta.
  - by eexists _, _.
  - pose proof (splitlines_nonempty c s) as Hne.
    change (String c s =? EmptyString)%string with false. cbv iota.
    destruct (splitlines (String c s)) as [|l ls]; [done|].
    destruct (endswith _ _); simpl; by eexists _, _.
Qed.

(** How the lines of [String c s] come from the lines of [s], when no
    other line break than LF occurs. *)
Lemma cell_source_cons ct c s m :
  implb (is_linebreak c) (Ascii.eqb c LF) = true ->
  cell_source (mkCell ct (String c s) m) =
  if Ascii.eqb c LF then EmptyString :: cell_source (mkCell ct s m)
  else match cell_source (mkCell ct s m) with
       | l :: ls => String c l :: ls
       | [] => [String c EmptyString]
       end.
Proof.
  intros Hc. unfold cell_source. cbn [c_source].
  destruct (Ascii.eqb_spec c LF) as [->|Hne].
  - destruct s as [|d s]; [done|].
    change (String LF (String d s) =? EmptyString)%string with false.
    change (String d s =? EmptyString)%string with false. cbv iota.
    change (endswith (String LF (String d s)) (String LF EmptyString))
      with (endswith (String d s) (String LF EmptyString)).
    change (splitlines (String LF (String d s)))
      with (EmptyString :: splitlines (String d s)).
    by destruct (endswith _ _).
  - destruct (is_linebreak c) eqn:Hlb; [done|].
    destruct s as [|d s].
    + simpl. rewrite Hlb.
      destruct (String.eqb_spec (String c EmptyString) (String LF EmptyString)) as [[= ->]|_];
        done.
    + change (String c (String d s) =? EmptyString)%string with false.
      change (String d s =? EmptyString)%string with false. cbv iota.
      assert (Hends : endswith (String c (String d s)) (String LF EmptyString) =
                      endswith (String d s) (String LF EmptyString)).
      { cbn [endswith].
        by destruct (String.eqb_spec (String c (String d s)) (String LF EmptyString)). }
      rewrite Hends.
      assert (Hsplit : splitlines (String c (String d s)) =
                match splitlines (String d s) with
                | [] => [String c EmptyString]
                | l :: ls => String c l :: ls
                end) by (cbn [splitlines]; by rewrite Hlb).
      rewrite Hsplit. pose proof (splitlines_nonempty d s) as Hne'.
      destruct (splitlines (String d s)) as [|l ls]; [done|].
      by destruct (endswith (String d s) _).
Qed.

Lemma join_cons_char sep c l ls :
  join sep (String c l :: ls) = String c (join sep (l :: ls)).
Proof. by destruct ls. Qed.

Lemma cell_source_join ct s m :
  only_lf_breaks s = true ->
  join (String LF EmptyString) (cell_source (mkCell ct s m)) = s.
Proof.
  induction s as [|c s IH]; [done|].
  unfold only_lf_breaks. cbn [string_forallb]. intros [Hc Hs]%andb_true_iff.
  specialize (IH Hs). rewrite (cell_source_cons _ _ _ _ Hc).
  destruct (cell_source_inv (mkCell ct s m)) as (l & ls & Hl).
  rewrite Hl in *. destruct (Ascii.eqb_spec c LF) as [->|_].
  - change (join (String LF EmptyString) (EmptyString :: l :: ls))
      with (String LF (join (String LF EmptyString) (l :: ls))).
    by rewrite IH.
  - by rewrite join_cons_char, IH.
Qed.

(** C6, the decomposition: [cell_source] yields one empty line on the
    empty source, the line split plus one empty line on a source that ends
    with a line feed, and the plain line split otherwise; and joining the
    lines with a line feed gives the source back when the source has no
    line break other than the line feed. *)
Theorem cell_source_reversible (cell : Cell) :
  (c_source cell = EmptyString -> cell_source cell = [EmptyString]) /\
  (c_source cell <> EmptyString ->
   (exists p, c_source cell = p +:+ String LF EmptyString) ->
   cell_source cell = splitlines (c_source cell) ++ [EmptyString]) /\
  (c_source cell <> EmptyString ->
   ~ (exists p, c_source cell = p +:+ String LF EmptyString) ->
   cell_source cell = splitlines (c_source cell)) /\
  (only_lf_breaks (c_source cell) = true ->
   join (String LF EmptyString) (cell_source cell) = c_source cell).
Proof.
  split; [|split; [|split]].
  - unfold cell_source. by intros ->.
  - intros Hne Hends%endswith_spec. unfold cell_source. rewrite Hends.
    by destruct (String.eqb_spec (c_source cell) EmptyString).
  - intros Hne Hends. unfold cell_source.
    destruct (String.eqb_spec (c_source cell) EmptyString); [done|].
    destruct (endswith _ _) eqn:He; [|done]. by apply endswith_spec in He.
  - destruct cell as [ct s m]. apply cell_source_join.
Qed.

Lemma cell_source_reversible_witness :
  let cell := mkCell code ("x = 1" +:+ String LF ("y" +:+ String LF EmptyString)) ∅ in
  cell_source cell = ["x = 1"; "y"; EmptyString] /\
  join (String LF EmptyString) (cell_source cell) = c_source cell.
Proof.
  intros cell.
  destruct (cell_source_reversible cell) as (_ & Hlf & _ & Hjoin).
  split.
  - rewrite Hlf; [reflexivity | discriminate |].
    by exists ("x = 1" +:+ String LF "y").
  - apply Hjoin. reflexivity.
Defined.

(** C6, the counterexample: a carriage return is a line break for
    [splitlines], so the sources "a\rb" and "a\nb" have the same lines, and
    joining the lines of the first does not give it back. *)
Lemma cell_source_not_reversible :
  let cell := mkCell code (String "a" (String CR "b")) ∅ in
  let cell' := mkCell code (String "a" (String LF "b")) ∅ in
  cell_source cell = ["a"; "b"] /\
  cell_source cell' = cell_source cell /\
  join (String LF EmptyString) (cell_source cell) <> c_source cell.
Proof. repeat split. discriminate. Qed.


(** ** The end-of-cell marker *)

Lemma endofcell_re_match_spec token line :
  endofcell_re_match token line = true <-> marker_pattern token line.
Proof.
  unfold endofcell_re_match, marker_pattern. split.
  - destruct (strip_prefix _ line) as [rest|] eqn:Hp; [|done].
    apply strip_prefix_Some in Hp. intros Hws. exists rest.
    by rewrite <- app_assoc_string.
  - intros (ws & -> & Hws). rewrite <- app_assoc_string.
    by rewrite (proj2 (strip_prefix_Some _ _ ws) eq_refl).
Qed.

#[global] Instance marker_pattern_dec token line : Decision (marker_pattern token line).
Proof.
  refine (cast_if (decide (endofcell_re_match token line = true)));
    by rewrite <- endofcell_re_match_spec.
Defined.

Lemma filter_nil_Forall token (source : list string) :
  List.filter (endofcell_re_match token) source = [] <->
  Forall (fun line => ~ marker_pattern token line) source.
Proof.
  induction source as [|line source IH]; simpl; [by split|].
  rewrite Forall_cons, <- IH, <- endofcell_re_match_spec.
  destruct (endofcell_re_match token line); split; try done.
  - by intros [? _].
  - by intros [_ ?].
Qed.

Lemma filter_cons_Exists token (source : list string) :
  List.filter (endofcell_re_match token) source <> [] <->
  Exists (marker_pattern token) source.
Proof.
  induction source as [|line source IH]; simpl.
  - split; [done | by intros ?%Exists_nil].
  - rewrite Exists_cons, <- IH, <- endofcell_re_match_spec.
    destruct (endofcell_re_match token line); split.
    + by left.
    + done.
    + by right.
    + by intros [?|?].
Qed.

Lemma dashes_snoc n : dashes n +:+ "-" = dashes (S n).
Proof. induction n as [|n IH]; simpl; [done | by rewrite IH]. Qed.

Lemma append_nil_r (s : string) : s +:+ EmptyString = s.
Proof. induction s as [|c s IH]; simpl; [done | by rewrite IH]. Qed.

Lemma append_dashes_S endofcell k :
  (endofcell +:+ "-") +:+ dashes k = endofcell +:+ dashes (S k).
Proof. by rewrite app_assoc_string. Qed.

(** From any token, the loop returns the token extended by the least
    number of dashes that ends the collisions. *)
Lemma py_endofcell_marker_from_least source endofcell :
  exists k,
    py_endofcell_marker_from source endofcell = endofcell +:+ dashes k /\
    List.filter (endofcell_re_match (endofcell +:+ dashes k)) source = [] /\
    forall j, (j < k)%nat ->
      List.filter (endofcell_re_match (endofcell +:+ dashes j)) source <> [].
Proof.
  funelim (py_endofcell_marker_from source endofcell).
  - exists 0%nat. rewrite append_nil_r. repeat split; [done | lia].
  - destruct H as (k & Hk & Hfree & Hbelow). exists (S k).
    rewrite <- !append_dashes_S. repeat split; [done..|].
    intros [|j] Hj.
    + simpl. rewrite append_nil_r, Hcollide. done.
    + rewrite <- append_dashes_S. apply Hbelow. lia.
Qed.

Lemma py_endofcell_marker_least source :
  exists n, (1 <= n)%nat /\
    py_endofcell_marker source = dashes n /\
    Forall (fun line => ~ marker_pattern (dashes n) line) source /\
    forall m, (1 <= m < n)%nat -> Exists (marker_pattern (dashes m)) source.
Proof.
  destruct (py_endofcell_marker_from_least source "-") as (k & Hk & Hfree & Hbelow).
  exists (S k). split; [lia|]. split; [done|]. split.
  - by apply filter_nil_Forall.
  - intros [|m] Hm; [lia|]. apply filter_cons_Exists, (Hbelow m). lia.
Qed.

(** A token that is free and whose shorter ones all collide is the one
    returned. *)
Lemma py_endofcell_marker_unique source n :
  (1 <= n)%nat ->
  Forall (fun line => ~ marker_pattern (dashes n) line) source ->
  (forall m, (1 <= m < n)%nat -> Exists (marker_pattern (dashes m)) source) ->
  py_endofcell_marker source = dashes n.
Proof.
  intros Hn Hfree Hbelow.
  destruct (py_endofcell_marker_least source) as (n' & Hn' & -> & Hfree' & Hbelow').
  f_equal. destruct (lt_eq_lt_dec n n') as [[Hlt | ->] | Hgt]; [| done |].
  - specialize (Hbelow' n ltac:(lia)).
    apply Exists_exists in Hbelow' as (line & Hin & Hm).
    rewrite Forall_forall in Hfree. by destruct (Hfree line Hin).
  - specialize (Hbelow n' ltac:(lia)).
    apply Exists_exists in Hbelow as (line & Hin & Hm).
    rewrite Forall_forall in Hfree'. by destruct (Hfree' line Hin).
Qed.

Lemma marker_pattern_exact token : marker_pattern token ("# " +:+ token).
Proof. exists EmptyString. by rewrite append_nil_r. Qed.

(** C2: [py_endofcell_marker] returns the shortest token of "-", "--",
    "---", ... that no line of the source matches (as '#', one space, the
    token, white space); so "--" when a line is "# -" and no line matches
    with "--", "---" when the lines "# -" and "# --" are there and no line
    matches with "---", and "-" when no line matches with "-". *)
Theorem py_endofcell_marker_shortest (source : list string) :
  (exists n, (1 <= n)%nat /\
     py_endofcell_marker source = dashes n /\
     Forall (fun line => ~ marker_pattern (dashes n) line) source /\
     forall m, (1 <= m < n)%nat -> Exists (marker_pattern (dashes m)) source) /\
  ("# -" ∈ source ->
   Forall (fun line => ~ marker_pattern "--" line) source ->
   py_endofcell_marker source = "--") /\
  ("# -" ∈ source -> "# --" ∈ source ->
   Forall (fun line => ~ marker_pattern "---" line) source ->
   py_endofcell_marker source = "---") /\
  (Forall (fun line => ~ marker_pattern "-" line) source ->
   py_endofcell_marker source = "-").
Proof.
  split; [apply py_endofcell_marker_least|].
  assert (Hone : "# -" ∈ source -> Exists (marker_pattern (dashes 1)) source).
  { intros Hin. apply Exists_exists. exists "# -". split; [done|].
    apply (marker_pattern_exact "-"). }
  assert (Htwo : "# --" ∈ source -> Exists (marker_pattern (dashes 2)) source).
  { intros Hin. apply Exists_exists. exists "# --". split; [done|].
    apply (marker_pattern_exact "--"). }
  split; [|split].
  - intros Hin Hfree. apply (py_endofcell_marker_unique source 2); [lia | done |].
    intros m Hm. assert (m = 1%nat) as -> by lia. auto.
  - intros Hin1 Hin2 Hfree. apply (py_endofcell_marker_unique source 3); [lia | done |].
    intros m Hm. assert (m = 1 \/ m = 2)%nat as [-> | ->] by lia; auto.
  - intros Hfree. apply (py_endofcell_marker_unique source 1); [lia | done |].
    intros m Hm. lia.
Qed.

Lemma py_endofcell_marker_shortest_witness :
  py_endofcell_marker ["x = 1"; "# -"; "# --"; "y = 2"] = "---" /\
  py_endofcell_marker ["# -"; "x = 1"] = "--" /\
  py_endofcell_marker ["x = 1"; "#-"; "# - -"] = "-".
Proof.
  split; [|split].
  - apply (py_endofcell_marker_shortest ["x = 1"; "# -"; "# --"; "y = 2"]).
    + set_solver.
    + set_solver.
    + compute_done.
  - apply (py_endofcell_marker_shortest ["# -"; "x = 1"]).
    + set_solver.
    + compute_done.
  - apply (py_endofcell_marker_shortest ["x = 1"; "#-"; "# - -"]).
    compute_done.
Defined.

(** ** Termination of the allocator *)

Lemma drop_dashes_split rest : exists k, rest = dashes k +:+ drop_dashes rest.
Proof.
  induction rest as [|c rest (k & IH)]; [by exists 0%nat|]. simpl.
  destruct (Ascii.eqb_spec c "-") as [->|_]; [|by exists 0%nat].
  exists (S k). simpl. by rewrite <- IH.
Qed.

Lemma drop_dashes_app k ws :
  string_forallb is_space ws = true -> drop_dashes (dashes k +:+ ws) = ws.
Proof.
  intros Hws. induction k as [|k IH]; simpl; [by apply drop_dashes_space | done].
Qed.

(** A line counts as colliding exactly when it matches the pattern with
    some token of the sequence. *)
Lemma marker_line_from_spec line :
  marker_line_from "-" line = true <->
  exists n, (1 <= n)%nat /\ marker_pattern (dashes n) line.
Proof.
  unfold marker_line_from, marker_pattern. split.
  - destruct (strip_prefix _ line) as [rest|] eqn:Hp; [|done].
    apply strip_prefix_Some in Hp. intros Hws.
    destruct (drop_dashes_split rest) as (k & Hk).
    exists (S k). split; [lia|]. exists (drop_dashes rest). split; [|done].
    rewrite Hp, Hk at 1. reflexivity.
  - intros ([|k] & Hn & ws & -> & Hws); [lia|].
    change ("# " +:+ dashes (S k) +:+ ws) with (("# " +:+ "-") +:+ (dashes k +:+ ws)).
    rewrite (proj2 (strip_prefix_Some _ _ (dashes k +:+ ws)) eq_refl).
    by rewrite drop_dashes_app.
Qed.

Lemma colliding_lines_le source : (colliding_lines source <= length source)%nat.
Proof.
  unfold colliding_lines, pending.
  induction source as [|line source IH]; simpl; [lia|].
  destruct (marker_line_from "-" line); simpl; lia.
Qed.

(** The number of tests the loop makes: it returns at the test of index
    [k] (from 0) when that token is the first free one. *)
Lemma py_endofcell_marker_loop_exact source k : forall fuel endofcell,
  List.filter (endofcell_re_match (endofcell +:+ dashes k)) source = [] ->
  (forall j, (j < k)%nat ->
     List.filter (endofcell_re_match (endofcell +:+ dashes j)) source <> []) ->
  py_endofcell_marker_loop fuel source endofcell =
  if decide (k < fuel)%nat then Some (endofcell +:+ dashes k) else None.
Proof.
  induction k as [|k IH]; intros [|fuel] endofcell Hfree Hbelow; simpl.
  - done.
  - simpl in Hfree. rewrite append_nil_r in *. by rewrite Hfree.
  - done.
  - pose proof (Hbelow 0%nat ltac:(lia)) as Hhere. simpl in Hhere.
    rewrite append_nil_r in Hhere.
    destruct (List.filter (endofcell_re_match endofcell) source); [done|].
    rewrite (IH fuel (endofcell +:+ "-")).
    + rewrite append_dashes_S. repeat case_decide; (done || lia).
    + by rewrite append_dashes_S.
    + intros j Hj. rewrite append_dashes_S. apply Hbelow. lia.
Qed.

(** C3: the loop of [py_endofcell_marker] returns, at its test number [n],
    with [n] at most the number of colliding lines plus one; a budget of
    fewer tests gives no answer, any budget from [n] on gives the token of
    [n] dashes, which no line of the source matches. *)
Theorem py_endofcell_marker_terminates (source : list string) :
  exists n,
    (1 <= n <= colliding_lines source + 1)%nat /\
    (forall fuel,
       py_endofcell_marker_loop fuel source "-" =
       if decide (n <= fuel)%nat then Some (dashes n) else None) /\
    py_endofcell_marker source = dashes n /\
    Forall (fun line => ~ marker_pattern (dashes n) line) source.
Proof.
  destruct (py_endofcell_marker_from_least source "-") as (k & Hk & Hfree & Hbelow).
  pose proof (py_endofcell_marker_loop_exact source k) as Hloop.
  exists (S k). split; [|split; [|split]].
  - split; [lia|].
    pose proof (py_endofcell_marker_loop_complete
                  (S (colliding_lines source)) source "-") as Hdone.
    unfold colliding_lines in *.
    rewrite (Hloop _ "-" Hfree Hbelow) in Hdone.
    case_decide; [lia|]. specialize (Hdone ltac:(lia)). done.
  - intros fuel. rewrite (Hloop fuel "-" Hfree Hbelow).
    repeat case_decide; (done || lia).
  - done.
  - by apply filter_nil_Forall.
Qed.

(** ** The plain-script encoder *)

Section EncoderProperties.
Context `{Collaborators}.

(** C5: with an empty metadata mapping, [code_to_py] returns its source
    as it is, whatever [padlines], and leaves the mapping empty. *)
Theorem code_to_py_empty (source : list string) (padlines : Z) :
  code_to_py source ∅ padlines = Ok (source, ∅).
Proof. unfold code_to_py. by case_decide. Qed.

(** The mapping [code_to_py] leaves, and its lines, when the key is there. *)
Lemma code_to_py_with_key (source : list string)
    (metadata : gmap string value) (padlines : Z) (endofcell : value) :
  metadata <> ∅ ->
  metadata !! "endofcell" = Some endofcell ->
  code_to_py source metadata padlines =
    let persisted :=
      if value_is_str endofcell "-" then delete "endofcell" metadata else metadata in
    Ok (["# + " +:+ metadata_to_json_options persisted] ++ source
          ++ replicate (Z.to_nat padlines) EmptyString
          ++ ["# " +:+ format_value endofcell],
        persisted).
Proof.
  intros Hne Hkey. unfold code_to_py. case_decide; [done|]. by rewrite Hkey.
Qed.

(** C4, as the code has it: for a non-empty mapping that holds the key
    'endofcell', [code_to_py] reads the entry, deletes it from the mapping
    when its value is "-", and returns the start line "# + " with the
    serialized mapping, the source, [padlines] empty lines and the end
    line "# " with the token. *)
Theorem code_to_py_markers (source : list string)
    (metadata : gmap string value) (padlines : Z) (endofcell : value) :
  metadata <> ∅ ->
  metadata !! "endofcell" = Some endofcell ->
  let persisted :=
    if value_is_str endofcell "-" then delete "endofcell" metadata else metadata in
  code_to_py source metadata padlines =
    Ok (["# + " +:+ metadata_to_json_options persisted] ++ source
          ++ replicate (Z.to_nat padlines) EmptyString
          ++ ["# " +:+ format_value endofcell],
        persisted) /\
  (forall token, endofcell = VStr token -> format_value endofcell = token) /\
  (endofcell = VStr "-" -> persisted !! "endofcell" = None) /\
  (endofcell <> VStr "-" -> persisted = metadata).
Proof.
  intros Hne Hkey persisted. split; [|split; [|split]].
  - by apply code_to_py_with_key.
  - by intros token ->.
  - intros ->. subst persisted. simpl. apply lookup_delete_eq.
  - intros Hdash. subst persisted. destruct endofcell as [| | |s| |]; try done.
    simpl. destruct (String.eqb_spec s "-") as [->|]; done.
Qed.

(** Without the key, a non-empty mapping makes [code_to_py] raise. *)
Lemma code_to_py_KeyError (source : list string)
    (metadata : gmap string value) (padlines : Z) :
  metadata <> ∅ ->
  metadata !! "endofcell" = None ->
  code_to_py source metadata padlines = KeyError "endofcell".
Proof. intros Hne Hkey. unfold code_to_py. case_decide; [done|]. by rewrite Hkey. Qed.

End EncoderProperties.

Section EncoderSamples.
#[local] Existing Instance sample_collaborators.

Lemma code_to_py_markers_witness :
let source := ["x = 1"; EmptyString; "y = 2"] in
let metadata : gmap string value :=
  {[ "endofcell" := VStr "--"; "tags" := VList [VStr "a"] ]} in
code_to_py source metadata 2 =
Ok (["# + " +:+ metadata_to_json_options metadata] ++ source
      ++ [EmptyString; EmptyString] ++ ["# --"],
    metadata).
Proof.
intros source metadata.
assert (Hne : metadata <> ∅).
{ intros Hempty. apply (f_equal (lookup "tags")) in Hempty.
  vm_compute in Hempty. discriminate. }
assert (Hkey : metadata !! "endofcell" = Some (VStr "--"))
  by (vm_compute; reflexivity).
exact (proj1 (code_to_py_markers (H := sample_collaborators)
                source metadata 2 (VStr "--") Hne Hkey)).
Defined.

(** The same call, evaluated. *)
Example code_to_py_markers_example :
fst <$> (match code_to_py (H := sample_collaborators)
                 ["x = 1"; EmptyString; "y = 2"]
                 {[ "endofcell" := VStr "--"; "tags" := VList [VStr "a"] ]} 2 with
         | Ok r => Some r
         | KeyError _ => None
         end) =
Some ["# + {endofcell, tags}"; "x = 1"; EmptyString; "y = 2";
      EmptyString; EmptyString; "# --"].
Proof. vm_compute. reflexivity. Qed.

(** C4, the counterexample: on a non-empty mapping without the key
  'endofcell' no default token is used; the call raises [KeyError] and
  returns no lines. *)
Lemma code_to_py_no_default :
code_to_py ["x = 1"] {[ "tags" := VList [VStr "a"] ]} 0
= KeyError "endofcell" /\
(forall lines metadata,
   code_to_py ["x = 1"] {[ "tags" := VList [VStr "a"] ]} 0
   <> Ok (lines, metadata)).
Proof.
assert (Hraise : code_to_py ["x = 1"]
                   {[ "tags" := VList [VStr "a"] ]} 0 = KeyError "endofcell")
  by (vm_compute; reflexivity).
split; [done|]. intros lines metadata. by rewrite Hraise.
Qed.

End EncoderSamples.

(** ** class [CellExporter] *)

Lemma has_key_is_Some key (d : gmap string value) :
  has_key key d = true <-> is_Some (d !! key).
Proof.
  unfold has_key.
  destruct (d !! key) as [v|]; split; [by eexists | done | done | by intros [? ?]].
Qed.

Lemma startswith_spec line p :
  startswith line p = true <-> exists rest, line = p +:+ rest.
Proof.
  unfold startswith. destruct (strip_prefix p line) as [rest|] eqn:Hp; split.
  - intros _. exists rest. by apply strip_prefix_Some.
  - done.
  - done.
  - intros (rest & Hrest). apply strip_prefix_Some in Hrest. congruence.
Qed.

(** Every line that [hash_comment] writes starts with '#': it is the
    prefix that the lines of an inactive cell share. *)
Lemma hash_comment_startswith line : startswith (hash_comment line) "#" = true.
Proof. by destruct line. Qed.

Lemma strip_comment_hash line : strip_comment "#" (hash_comment line) = line.
Proof. by destruct line. Qed.

Lemma strip_comment_roxygen line : strip_comment "#'" (roxygen_comment line) = line.
Proof. by destruct line. Qed.

Section ExporterProperties.
Context `{Collaborators}.

(** C1: [explicit_start_marker] answers true exactly when the metadata of
    the exporter is not empty, or every line of [self.source] starts with
    the comment prefix '#', or the reader, asked through [code_to_cell],
    takes a number of lines that is not [len(source)]; it answers false
    otherwise. *)
Theorem explicit_start_marker_iff (self : CellExporter) (source : list string) :
  let needed :=
    metadata self <> ∅ \/
    Forall (fun line => exists rest, line = "#" +:+ rest) (Self.source self) \/
    snd (code_to_cell self source false) <> Z.of_nat (length source) in
  (explicit_start_marker self source = true <-> needed) /\
  (explicit_start_marker self source = false <-> ~ needed).
Proof.
  intros needed.
  assert (Htrue : explicit_start_marker self source = true <-> needed).
  { unfold explicit_start_marker, needed. case_decide as Hmeta; [by split; auto|].
    destruct (forallb _ _) eqn:Hall.
    - split; [|done]. intros _. right; left.
      apply Forall_forall. intros line Hin%list_elem_of_In.
      rewrite forallb_forall in Hall. by apply startswith_spec, Hall.
    - destruct (Z.eqb_spec (snd (code_to_cell self source false))
                           (Z.of_nat (length source))) as [Heq|Hneq]; simpl.
      + split; [done|]. intros [Hm | [Hlines | Hprobe]]; [done| |done].
        assert (forallb (fun line => startswith line "#") (Self.source self) = true)
          as Hall'; [|congruence].
        apply forallb_forall. intros line Hin%list_elem_of_In.
        rewrite Forall_forall in Hlines. by apply startswith_spec, Hlines.
      + split; [|done]. intros _. by right; right. }
  split; [done|]. rewrite <- Htrue. by destruct (explicit_start_marker self source).
Qed.

(** C8: a raw cell whose filtered metadata has no key 'active' gets the
    entry 'active' with the empty string at construction, and is code; and
    [is_code] is true exactly for a code cell and for a raw cell whose
    metadata has the key 'active'. *)
Theorem raw_cell_is_code :
  (forall (cell : Cell) (default_language ext : string),
     c_cell_type cell = raw ->
     filter_metadata (c_metadata cell) !! "active" = None ->
     let self := __init__ cell default_language ext in
     metadata self = <["active" := VStr EmptyString]> (filter_metadata (c_metadata cell)) /\
     metadata self !! "active" = Some (VStr EmptyString) /\
     is_code self = true) /\
  (forall self : CellExporter,
     is_code self = true <->
     cell_type self = code \/
     (cell_type self = raw /\ is_Some (metadata self !! "active"))).
Proof.
  split.
  - intros cell dl e Hraw Hnone self.
    assert (Hmeta : metadata self =
              <["active" := VStr EmptyString]> (filter_metadata (c_metadata cell))).
    { unfold self, __init__. cbn [metadata]. rewrite Hraw.
      unfold has_key. by rewrite Hnone. }
    split; [done|]. split.
    + rewrite Hmeta. apply lookup_insert_eq.
    + unfold is_code. replace (cell_type self) with raw by (by rewrite <- Hraw).
      apply has_key_is_Some. rewrite Hmeta, lookup_insert_eq. by eexists.
  - intros self. unfold is_code. destruct (cell_type self).
    + split; [by left | done].
    + split; [done | by intros [? | [? _]]].
    + rewrite has_key_is_Some. split; [by right | by intros [? | [_ ?]]].
Qed.

(** C9: [markdown_escape] leaves the lines as they are for '.Rmd'; for
    '.R' a non-empty line gets "#' " in front and an empty line becomes
    "#'"; for any other extension a non-empty line gets "# " in front and
    an empty line becomes "#"; and in each case stripping the prefix gives
    the lines back, so the mapping is injective. *)
Theorem markdown_escape_invertible (self : CellExporter) (source : list string) :
  (ext self = ".Rmd" -> markdown_escape self source = source) /\
  (ext self = ".R" ->
   markdown_escape self source =
   map (fun line => if truthy line then "#' " +:+ line else "#'") source) /\
  (ext self <> ".Rmd" -> ext self <> ".R" ->
   markdown_escape self source =
   map (fun line => if truthy line then "# " +:+ line else "#") source) /\
  markdown_unescape (ext self) (markdown_escape self source) = source /\
  (forall source', markdown_escape self source = markdown_escape self source' ->
                   source = source').
Proof.
  assert (Hinv : forall lines,
            markdown_unescape (ext self) (markdown_escape self lines) = lines).
  { intros lines. unfold markdown_unescape, markdown_escape.
    repeat case_decide; [done | |]; rewrite map_map.
    - rewrite <- (map_id lines) at 2. apply map_ext, strip_comment_roxygen.
    - rewrite <- (map_id lines) at 2. apply map_ext, strip_comment_hash. }
  unfold markdown_escape. repeat split.
  - intros ->. by case_decide.
  - intros ->. by repeat case_decide.
  - intros ? ?. by repeat case_decide.
  - apply Hinv.
  - intros source' Heq. rewrite <- (Hinv source), <- (Hinv source').
    unfold markdown_escape. by rewrite Heq.
Qed.

End ExporterProperties.

(** ** [code_to_text] *)

Section CodeToText.
Context `{Collaborators}.

Lemma explicit_start_marker_nonempty (self : CellExporter) (source : list string) :
  metadata self <> ∅ -> explicit_start_marker self source = true.
Proof. intros Hne. unfold explicit_start_marker. by case_decide. Qed.

Lemma explicit_start_marker_false (self : CellExporter) (source : list string) :
  explicit_start_marker self source = false -> metadata self = ∅.
Proof.
  unfold explicit_start_marker. case_decide as Hmeta; [done|]. intros _.
  by destruct (decide (metadata self = ∅)).
Qed.

(** The plain-script branch sets the key 'endofcell' whenever the mapping
    is not empty, so that [code_to_py] never misses it: [code_to_text]
    raises no [KeyError]. *)
Lemma code_to_text_Ok (self : CellExporter) : exists r, code_to_text self = Ok r.
Proof.
  unfold code_to_text. destruct (resolve_active self) as [active md].
  cbn [ext language padlines source set_metadata].
  case_decide; [by eexists|]. case_decide; [by eexists|].
  set (src := if active then _ else _).
  destruct (explicit_start_marker _ src) eqn:Hstart.
  - rewrite (code_to_py_with_key _ _ _ (VStr (py_endofcell_marker src))).
    + by eexists.
    + apply insert_non_empty.
    + apply lookup_insert_eq.
  - apply explicit_start_marker_false in Hstart. cbn [metadata set_metadata] in Hstart.
    subst md. unfold code_to_py. case_decide; [by eexists | done].
Qed.

(** C7: for '.R' and '.py', a cell that is active by [is_active] and whose
    language is not the one of the format ('R', 'python') is exported as an
    inactive cell: its lines are commented out, without magic escaping, and
    the metadata records 'active' as "ipynb" and 'language' as the
    language of the cell. *)
Theorem code_to_text_foreign_language (self : CellExporter) :
  is_active (ext self) (metadata self) = true ->
  (ext self = ".R" /\ language self <> "R") \/
  (ext self = ".py" /\ language self <> "python") ->
  let recorded :=
    <["language" := VStr (language self)]>
      (<["active" := VStr "ipynb"]> (metadata self)) in
  let commented := map hash_comment (source self) in
  resolve_active self = (false, recorded) /\
  (ext self = ".R" -> code_to_text self = Ok (code_to_r commented recorded)) /\
  (ext self = ".py" ->
   code_to_text self =
   code_to_py commented
     (<["endofcell" := VStr (py_endofcell_marker commented)]> recorded)
     (padlines self)) /\
  exists lines final,
    code_to_text self = Ok (lines, final) /\
    final !! "active" = Some (VStr "ipynb") /\
    final !! "language" = Some (VStr (language self)).
Proof.
  intros Hactive Hforeign recorded commented.
  assert (Hres : resolve_active self = (false, recorded)).
  { unfold resolve_active. rewrite Hactive.
    destruct Hforeign as [[He Hl] | [He Hl]]; rewrite He;
      (case_decide; [|by exfalso; auto]); (case_decide; try done);
      apply String.eqb_neq in Hl; by rewrite Hl. }
  assert (Hr : ext self = ".R" ->
               code_to_text self = Ok (code_to_r commented recorded)).
  { intros He. unfold code_to_text. rewrite Hres.
    cbn [ext language padlines source set_metadata]. rewrite He.
    by repeat case_decide. }
  assert (Hpy : ext self = ".py" ->
                code_to_text self =
                code_to_py commented
                  (<["endofcell" := VStr (py_endofcell_marker commented)]> recorded)
                  (padlines self)).
  { intros He. unfold code_to_text. rewrite Hres.
    cbn [ext language padlines source set_metadata]. rewrite He.
    repeat (case_decide; try done).
    rewrite explicit_start_marker_nonempty; [done|]. apply insert_non_empty. }
  split; [done|]. split; [done|]. split; [done|].
  destruct Hforeign as [[He _] | [He _]].
  - rewrite (Hr He). unfold code_to_r. eexists _, _. split; [reflexivity|].
    subst recorded.
    destruct (is_active "R" _); by simplify_map_eq.
  - rewrite (Hpy He).
    rewrite (code_to_py_with_key _ _ _ (VStr (py_endofcell_marker commented)));
      [|apply insert_non_empty|apply lookup_insert_eq].
    eexists _, _. split; [reflexivity|]. subst recorded.
    destruct (value_is_str _ _); by simplify_map_eq.
Qed.

End CodeToText.

(** ** The class on concrete cells *)

Section ExporterSamples.
#[local] Existing Instance sample_collaborators.

Lemma code_to_text_foreign_language_witness :
  exists lines final,
    code_to_text r_cell_in_py = Ok (lines, final) /\
    final !! "active" = Some (VStr "ipynb") /\
    final !! "language" = Some (VStr "R").
Proof.
  assert (Hactive : is_active (ext r_cell_in_py) (metadata r_cell_in_py) = true)
    by (vm_compute; reflexivity).
  assert (Hforeign : (ext r_cell_in_py = ".R" /\ language r_cell_in_py <> "R") \/
                     (ext r_cell_in_py = ".py" /\ language r_cell_in_py <> "python")).
  { right. split; [reflexivity | discriminate]. }
  exact (proj2 (proj2 (proj2
           (code_to_text_foreign_language r_cell_in_py Hactive Hforeign)))).
Defined.

(** The lines of that export. *)
Example code_to_text_foreign_language_lines :
  match code_to_text r_cell_in_py with
  | Ok (lines, _) => lines
  | KeyError _ => []
  end = ["# + {active, language}"; "# %%R"; "# ls()"; "# -"].
Proof. vm_compute. reflexivity. Qed.

Lemma explicit_start_marker_iff_witness :
  explicit_start_marker commented_cell ["# a comment"; "#!shebang"] = true /\
  explicit_start_marker
    (mkCellExporter ".py" code ["x = 1"] ∅ "python" 0 1) ["x = 1"] = false.
Proof.
  split.
  - apply (proj1 (explicit_start_marker_iff commented_cell
                    ["# a comment"; "#!shebang"])).
    right; left. repeat constructor.
    + by exists " a comment".
    + by exists "!shebang".
  - apply (proj2 (explicit_start_marker_iff
                    (mkCellExporter ".py" code ["x = 1"] ∅ "python" 0 1) ["x = 1"])).
    intros [Hmeta | [Hlines | Hprobe]].
    + by apply Hmeta.
    + apply Forall_cons in Hlines as [(rest & Hrest) _]. discriminate.
    + by apply Hprobe.
Defined.

Lemma raw_cell_is_code_witness :
  let self := __init__ front_matter "python" ".Rmd" in
  metadata self !! "active" = Some (VStr EmptyString) /\ is_code self = true.
Proof.
  intros self.
  assert (Hnone : filter_metadata (c_metadata front_matter) !! "active" = None)
    by (vm_compute; reflexivity).
  destruct (proj1 raw_cell_is_code front_matter "python" ".Rmd" eq_refl Hnone)
    as (_ & Hactive & Hcode).
  by split.
Defined.

Lemma markdown_escape_invertible_witness :
  let self := mkCellExporter ".R" markdown ["A title"; EmptyString; "text"] ∅ "R" 0 1 in
  let other := mkCellExporter ".py" markdown ["A title"; EmptyString] ∅ "python" 0 1 in
  markdown_escape self (source self) = ["#' A title"; "#'"; "#' text"] /\
  markdown_escape other (source other) = ["# A title"; "#"].
Proof.
  intros self other. split.
  - exact (proj1 (proj2 (markdown_escape_invertible self (source self))) eq_refl).
  - refine (proj1 (proj2 (proj2 (markdown_escape_invertible other (source other)))) _ _);
      discriminate.
Defined.


End ExporterSamples.


(** * Further properties *)

(** ** Lines of a source *)

Lemma splitlines_no_linebreak_bounded (n : nat) : forall s,
  (String.length s <= n)%nat ->
  Forall (fun line => no_linebreak line = true) (splitlines s).
Proof.
  induction n as [|n IH]; intros [|c s] Hlen; simpl in *; try (constructor || lia).
  destruct (is_linebreak c) eqn:Hc.
  - constructor; [done|].
    destruct (Ascii.eqb c CR); [|apply IH; lia].
    destruct s as [|d s]; [apply IH; simpl; lia|].
    destruct (Ascii.eqb d LF); apply IH; simpl in *; lia.
  - specialize (IH s ltac:(lia)).
    destruct (splitlines s) as [|l ls].
    + constructor; [|done]. unfold no_linebreak. simpl. by rewrite Hc.
    + apply Forall_cons in IH as [Hl Hls]. constructor; [|done].
      unfold no_linebreak in *. simpl. by rewrite Hc.
Qed.

(** X1: no line that [cell_source] returns holds a line break character:
    every break of the source is consumed by the split. *)
Theorem cell_source_no_linebreak (cell : Cell) :
  Forall (fun line => no_linebreak line = true) (cell_source cell).
Proof.
  pose proof (splitlines_no_linebreak_bounded _ (c_source cell) (le_n _)) as Hsplit.
  unfold cell_source. destruct (String.eqb _ _); [by repeat constructor|].
  destruct (endswith _ _); [|done].
  apply Forall_app. split; [done | by repeat constructor].
Qed.

Lemma no_linebreak_cons c line :
  no_linebreak (String c line) = true ->
  is_linebreak c = false /\ no_linebreak line = true.
Proof.
  unfold no_linebreak. simpl. intros [Hc Hl]%andb_true_iff.
  split; [by destruct (is_linebreak c) | done].
Qed.

Lemma cell_source_single ct m line :
  no_linebreak line = true -> cell_source (mkCell ct line m) = [line].
Proof.
  induction line as [|c line IH]; [done|].
  intros [Hc Hl]%no_linebreak_cons.
  rewrite cell_source_cons by (by rewrite Hc).
  destruct (Ascii.eqb_spec c LF) as [->|_]; [done|]. by rewrite (IH Hl).
Qed.

Lemma cell_source_line_then ct m line rest :
  no_linebreak line = true ->
  cell_source (mkCell ct (line +:+ String LF rest) m) =
  line :: cell_source (mkCell ct rest m).
Proof.
  induction line as [|c line IH]; simpl.
  - intros _. by rewrite cell_source_cons.
  - intros [Hc Hl]%no_linebreak_cons.
    rewrite cell_source_cons by (by rewrite Hc).
    destruct (Ascii.eqb_spec c LF) as [->|_]; [done|]. by rewrite (IH Hl).
Qed.

(** X2: the other direction of the round trip. Lines without line breaks,
    at least one of them, joined with line feeds and put in a cell, are the
    lines that [cell_source] returns. *)
Theorem cell_source_of_join (ct : CellType) (m : gmap string value)
    (lines : list string) :
  lines <> [] ->
  Forall (fun line => no_linebreak line = true) lines ->
  cell_source (mkCell ct (join (String LF EmptyString) lines) m) = lines.
Proof.
  intros Hne Hlines. induction Hlines as [|line lines Hl Hls IH]; [done|].
  destruct lines as [|line' lines].
  - by apply cell_source_single.
  - change (join (String LF EmptyString) (line :: line' :: lines))
      with (line +:+ String LF (join (String LF EmptyString) (line' :: lines))).
    rewrite cell_source_line_then by done. by rewrite IH.
Qed.

Lemma cell_source_of_join_witness :
  cell_source (mkCell code (join (String LF EmptyString) ["x = 1"; EmptyString; "y"; EmptyString]) ∅)
  = ["x = 1"; EmptyString; "y"; EmptyString].
Proof.
  apply cell_source_of_join; [discriminate|]. by repeat constructor.
Defined.

(** X3: a source whose only line breaks are line feeds has one line more
    than it has line feeds. *)
Theorem cell_source_length (cell : Cell) :
  only_lf_breaks (c_source cell) = true ->
  length (cell_source cell) = S (count_lf (c_source cell)).
Proof.
  destruct cell as [ct s m]. cbn [c_source].
  induction s as [|c s IH]; [done|].
  unfold only_lf_breaks. cbn [string_forallb]. intros [Hc Hs]%andb_true_iff.
  specialize (IH Hs). rewrite (cell_source_cons _ _ _ _ Hc). cbn [count_lf].
  destruct (cell_source_inv (mkCell ct s m)) as (l & ls & Hl). rewrite Hl in *.
  destruct (Ascii.eqb c LF); simpl in *; lia.
Qed.

Lemma cell_source_length_witness :
  length (cell_source (mkCell code ("a" +:+ String LF ("b" +:+ String LF EmptyString)) ∅)) = 3%nat.
Proof.
  exact (cell_source_length
           (mkCell code ("a" +:+ String LF ("b" +:+ String LF EmptyString)) ∅) eq_refl).
Defined.

(** ** More on the end-of-cell marker *)

Lemma dashes_length n : String.length (dashes n) = n.
Proof. induction n as [|n IH]; simpl; [done | by rewrite IH]. Qed.

Lemma py_endofcell_marker_bound source :
  exists n, py_endofcell_marker source = dashes n /\
            (1 <= n <= colliding_lines source + 1)%nat.
Proof.
  destruct (py_endofcell_marker_from_least source "-") as (k & Hk & Hfree & Hbelow).
  exists (S k). split; [done|]. split; [lia|].
  pose proof (py_endofcell_marker_loop_complete
                (S (colliding_lines source)) source "-") as Hdone.
  unfold colliding_lines in *.
  rewrite (py_endofcell_marker_loop_exact source k _ "-" Hfree Hbelow) in Hdone.
  case_decide; [lia|]. by specialize (Hdone ltac:(lia)).
Qed.

(** X4: the token has at least one character and at most one more than
    the source has lines. *)
Theorem py_endofcell_marker_length (source : list string) :
  (1 <= String.length (py_endofcell_marker source) <= S (length source))%nat.
Proof.
  destruct (py_endofcell_marker_bound source) as (n & -> & Hn).
  pose proof (colliding_lines_le source). rewrite dashes_length. lia.
Qed.

(** Two sources on which the same tokens collide get the same token. *)
Lemma py_endofcell_marker_same_collisions (source source' : list string) :
  (forall n, (1 <= n)%nat ->
     Exists (marker_pattern (dashes n)) source <->
     Exists (marker_pattern (dashes n)) source') ->
  py_endofcell_marker source = py_endofcell_marker source'.
Proof.
  intros Hsame.
  destruct (py_endofcell_marker_least source) as (n & Hn & -> & Hfree & Hbelow).
  symmetry. apply py_endofcell_marker_unique; [done | |].
  - apply Forall_forall. intros line Hin Hmatch.
    assert (Hex : Exists (marker_pattern (dashes n)) source).
    { apply Hsame; [done|]. apply Exists_exists. eauto. }
    apply Exists_exists in Hex as (line' & Hin' & Hmatch').
    rewrite Forall_forall in Hfree. by apply (Hfree line').
  - intros m Hm. apply Hsame; [lia|]. by apply Hbelow.
Qed.

(** X5: the token does not depend on the order of the lines, and lines
    that match the pattern with no token of the sequence (blank lines, for
    one) can be added without changing it. *)
Theorem py_endofcell_marker_irrelevant (source source' extra : list string) :
  (source ≡ₚ source' -> py_endofcell_marker source = py_endofcell_marker source') /\
  (Forall (fun line => marker_line_from "-" line = false) extra ->
   py_endofcell_marker (source ++ extra) = py_endofcell_marker source).
Proof.
  split.
  - intros Hperm. apply py_endofcell_marker_same_collisions. intros n _.
    by rewrite Hperm.
  - intros Hextra. apply py_endofcell_marker_same_collisions. intros n Hn.
    rewrite Exists_app. split; [|by left]. intros [Hsrc | Hex]; [done|].
    apply Exists_exists in Hex as (line & Hin & Hmatch).
    rewrite Forall_forall in Hextra. specialize (Hextra line Hin).
    assert (marker_line_from "-" line = true); [|congruence].
    apply marker_line_from_spec. eauto.
Qed.

Lemma py_endofcell_marker_irrelevant_witness :
  py_endofcell_marker ["# -"; "x = 1"] = py_endofcell_marker ["x = 1"; "# -"] /\
  py_endofcell_marker (["# -"; "x = 1"] ++ [EmptyString; "# - x"])
  = py_endofcell_marker ["# -"; "x = 1"].
Proof.
  split.
  - apply (proj1 (py_endofcell_marker_irrelevant
                    ["# -"; "x = 1"] ["x = 1"; "# -"] [])).
    apply Permutation_swap.
  - apply (proj2 (py_endofcell_marker_irrelevant
                    ["# -"; "x = 1"] [] [EmptyString; "# - x"])).
    by repeat constructor.
Defined.

(** ** More on the exporter *)

Section ExportProperties.
Context `{Collaborators}.

(** [code_to_text], by format, over the result of [resolve_active]. *)
Lemma code_to_text_by_format (self : CellExporter) :
  code_to_text self =
  let active := fst (resolve_active self) in
  let md := snd (resolve_active self) in
  if decide (ext self = ".Rmd") then
    Ok (code_to_rmd
          (if active then escape_magic (source self) (language self) else source self)
          md (language self))
  else if decide (ext self = ".R") then Ok (code_to_r (script_body self) md)
  else
    code_to_py (script_body self)
      (if explicit_start_marker (set_metadata self md) (script_body self)
       then <["endofcell" := VStr (py_endofcell_marker (script_body self))]> md
       else md)
      (padlines self).
Proof.
  unfold code_to_text, script_body.
  destruct (resolve_active self) as [active md].
  cbn [fst snd ext language padlines source set_metadata].
  by destruct active.
Qed.

Lemma resolve_active_frame (self : CellExporter) (key : string) :
  key <> "active" -> key <> "language" ->
  snd (resolve_active self) !! key = metadata self !! key.
Proof.
  intros Ha Hl. unfold resolve_active.
  case_decide; [|done]. destruct (_ && _); [|done].
  cbn [snd]. by rewrite !lookup_insert_ne.
Qed.

Lemma resolve_active_Rmd (self : CellExporter) :
  ext self = ".Rmd" ->
  resolve_active self = (is_active ".Rmd" (metadata self), metadata self).
Proof.
  intros He. unfold resolve_active. rewrite He.
  case_decide as Hext; [|done]. by destruct Hext.
Qed.

Lemma resolve_active_empty (self : CellExporter) :
  snd (resolve_active self) = ∅ -> metadata self = ∅.
Proof.
  unfold resolve_active. case_decide; [|done]. destruct (_ && _); [|done].
  cbn [snd]. intros Hempty. by apply insert_non_empty in Hempty.
Qed.

(** The plain-script branch, when a start marker is needed. *)
Lemma code_to_text_py_explicit (self : CellExporter) :
  ext self <> ".Rmd" -> ext self <> ".R" ->
  let md := snd (resolve_active self) in
  let body := script_body self in
  let token := py_endofcell_marker body in
  let final :=
    if decide (token = "-") then delete "endofcell" md
    else <["endofcell" := VStr token]> md in
  explicit_start_marker (set_metadata self md) body = true ->
  code_to_text self =
  Ok (("# + " +:+ metadata_to_json_options final) :: body
        ++ replicate (Z.to_nat (padlines self)) EmptyString
        ++ ["# " +:+ token],
      final).
Proof.
  intros Hrmd Hr md body token final Hstart.
  rewrite code_to_text_by_format. cbv zeta. fold md body.
  do 2 (case_decide; [done|]). rewrite Hstart. fold token.
  rewrite (code_to_py_with_key _ _ _ (VStr token));
    [|apply insert_non_empty|apply lookup_insert_eq].
  cbn [value_is_str format_value]. subst final.
  destruct (String.eqb_spec token "-") as [Heq|Hneq]; case_decide; try done.
  by rewrite delete_insert_eq.
Qed.

(** The plain-script branch, when no marker is needed. *)
Lemma code_to_text_py_implicit_eq (self : CellExporter) :
  ext self <> ".Rmd" -> ext self <> ".R" ->
  let md := snd (resolve_active self) in
  explicit_start_marker (set_metadata self md) (script_body self) = false ->
  md = ∅ /\ code_to_text self = Ok (script_body self, ∅).
Proof.
  intros Hrmd Hr md Hstart.
  pose proof (explicit_start_marker_false _ _ Hstart) as Hempty.
  cbn [metadata set_metadata] in Hempty. split; [done|].
  rewrite code_to_text_by_format. cbv zeta. fold md.
  do 2 (case_decide; [done|]). rewrite Hstart, Hempty.
  unfold code_to_py. by case_decide.
Qed.

Lemma py_endofcell_marker_dash source :
  exists rest, py_endofcell_marker source = String "-" rest.
Proof.
  destruct (py_endofcell_marker_least source) as ([|n] & Hn & -> & _); [lia|].
  by eexists.
Qed.

Lemma py_endofcell_marker_free source :
  Forall (fun line => ~ marker_pattern (py_endofcell_marker source) line) source.
Proof.
  by destruct (py_endofcell_marker_least source) as (n & _ & -> & Hfree & _).
Qed.

(** X6: when the plain-script export writes markers, its lines are the
    start line "# + " with the options, the body, [padlines] empty lines and
    the end line "# " with the token of [py_endofcell_marker]; the end line
    matches the end-of-cell pattern of that token and no line before it
    does, so the first match is the end of the cell. *)
Theorem code_to_text_py_end_marker (self : CellExporter) :
  ext self <> ".Rmd" -> ext self <> ".R" ->
  let body := script_body self in
  let token := py_endofcell_marker body in
  explicit_start_marker (set_metadata self (snd (resolve_active self))) body = true ->
  exists options final,
    let before :=
      ("# + " +:+ options) :: body
        ++ replicate (Z.to_nat (padlines self)) EmptyString in
    code_to_text self = Ok (before ++ ["# " +:+ token], final) /\
    options = metadata_to_json_options final /\
    Forall (fun line => ~ marker_pattern token line) before /\
    marker_pattern token ("# " +:+ token).
Proof.
  intros Hrmd Hr body token Hstart.
  pose proof (code_to_text_py_explicit self Hrmd Hr Hstart) as Heq.
  cbv zeta in Heq. fold body token in Heq.
  eexists _, _. cbv zeta. split; [|split; [reflexivity|split]].
  - rewrite Heq. f_equal. f_equal. simpl. by rewrite <- app_assoc.
  - constructor.
    + destruct (py_endofcell_marker_dash body) as (rest & Hrest). fold token in Hrest.
      rewrite Hrest. intros (ws & Hline & _). simpl in Hline. discriminate.
    + apply Forall_app. split; [apply py_endofcell_marker_free|].
      apply Forall_forall. intros line [-> _]%elem_of_replicate (ws & Hline & _).
      simpl in Hline. discriminate.
  - apply marker_pattern_exact.
Qed.

(** X7: what the plain-script export leaves under 'endofcell'. Without
    markers the mapping is empty; with markers the key holds the token,
    unless the token is "-", for which the key is deleted. *)
Theorem code_to_text_py_endofcell (self : CellExporter) :
  ext self <> ".Rmd" -> ext self <> ".R" ->
  let body := script_body self in
  let token := py_endofcell_marker body in
  exists lines final,
    code_to_text self = Ok (lines, final) /\
    final !! "endofcell" =
      (if explicit_start_marker (set_metadata self (snd (resolve_active self))) body
       then if decide (token = "-") then None else Some (VStr token)
       else None) /\
    (explicit_start_marker (set_metadata self (snd (resolve_active self))) body = false ->
     lines = body /\ final = ∅ /\ metadata self = ∅).
Proof.
  intros Hrmd Hr body token.
  destruct (explicit_start_marker _ body) eqn:Hstart.
  - rewrite (code_to_text_py_explicit self Hrmd Hr Hstart). cbv zeta. fold body token.
    eexists _, _. split; [reflexivity|]. split; [|done].
    case_decide; [apply lookup_delete_eq | apply lookup_insert_eq].
  - destruct (code_to_text_py_implicit_eq self Hrmd Hr Hstart) as [Hempty ->].
    eexists _, _. split; [reflexivity|]. split; [apply lookup_empty|].
    intros _. split; [done|]. split; [done|]. by apply resolve_active_empty.
Qed.

(** X8: [cell_to_text] raises nothing: the [KeyError] of [code_to_py]
    cannot occur, since the plain-script branch stores 'endofcell'
    whenever it hands over a mapping that is not empty. *)
Theorem cell_to_text_Ok (self : CellExporter) :
  exists lines final, cell_to_text self = Ok (lines, final).
Proof.
  unfold cell_to_text. destruct (is_code self); [|by eexists _, _].
  destruct (code_to_text_Ok self) as ([lines final] & ->). by eexists _, _.
Qed.

(** X9: the export touches the metadata at the keys 'active', 'language',
    'endofcell' and 'eval' only; under any other key the mapping it leaves
    holds what the exporter held. A markdown cell leaves the mapping as
    it is. *)
Theorem cell_to_text_metadata_frame (self : CellExporter) :
  exists lines final,
    cell_to_text self = Ok (lines, final) /\
    (forall key, key ∉ encoder_keys -> final !! key = metadata self !! key) /\
    (is_code self = false -> final = metadata self).
Proof.
  unfold cell_to_text. destruct (is_code self); [|by eexists _, _].
  assert (Hframe : forall key, key ∉ encoder_keys ->
            key <> "endofcell" /\ key <> "eval" /\
            snd (resolve_active self) !! key = metadata self !! key).
  { intros key Hkey. unfold encoder_keys in Hkey.
    rewrite !not_elem_of_cons in Hkey. destruct Hkey as (? & ? & ? & ? & _).
    repeat split; try done. by apply resolve_active_frame. }
  destruct (decide (ext self = ".Rmd")) as [Hrmd|Hrmd];
    [|destruct (decide (ext self = ".R")) as [Hr|Hr]].
  - rewrite code_to_text_by_format. cbv zeta. case_decide; [|done].
    unfold code_to_rmd. eexists _, _. split; [reflexivity|]. split; [|done].
    intros key (? & ? & <-)%Hframe. destruct (is_active "Rmd" _); [done|].
    by rewrite lookup_insert_ne.
  - rewrite code_to_text_by_format. cbv zeta. do 2 (case_decide; try done).
    unfold code_to_r. eexists _, _. split; [reflexivity|]. split; [|done].
    intros key (? & ? & <-)%Hframe. destruct (is_active "R" _); [done|].
    by rewrite lookup_insert_ne.
  - destruct (explicit_start_marker (set_metadata self (snd (resolve_active self)))
                (script_body self)) eqn:Hstart.
    + rewrite (code_to_text_py_explicit self Hrmd Hr Hstart). cbv zeta.
      eexists _, _. split; [reflexivity|]. split; [|done].
      intros key (? & ? & <-)%Hframe.
      case_decide; [by rewrite lookup_delete_ne | by rewrite lookup_insert_ne].
    + destruct (code_to_text_py_implicit_eq self Hrmd Hr Hstart) as [Hempty ->].
      eexists _, _. split; [reflexivity|]. split; [|done].
      intros key (? & ? & <-)%Hframe. by rewrite Hempty.
Qed.

End ExportProperties.

Section FormatProperties.
Context `{Collaborators}.

Lemma hash_comment_lines (source : list string) :
  Forall (fun line => startswith line "#" = true) (map hash_comment source).
Proof. apply Forall_map, Forall_true. intros line. by destruct line. Qed.

Lemma roxygen_comment_lines (source : list string) :
  Forall (fun line => startswith line "#" = true) (map roxygen_comment source).
Proof. apply Forall_map, Forall_true. intros line. by destruct line. Qed.

(** X10: a cell that is exported inactive to a script format gives comment
    lines only: every line of the text starts with '#', but for the empty
    padding lines of the plain-script format; for '.R' every line does. *)
Theorem code_to_text_inactive_commented (self : CellExporter) :
  ext self <> ".Rmd" ->
  fst (resolve_active self) = false ->
  exists lines final,
    code_to_text self = Ok (lines, final) /\
    Forall (fun line => line = EmptyString \/ startswith line "#" = true) lines /\
    (ext self = ".R" -> Forall (fun line => startswith line "#" = true) lines).
Proof.
  intros Hrmd Hinactive.
  assert (Hbody : Forall (fun line => startswith line "#" = true) (script_body self)).
  { unfold script_body. rewrite Hinactive. apply hash_comment_lines. }
  assert (Hweak : forall lines,
            Forall (fun line => startswith line "#" = true) lines ->
            Forall (fun line => line = EmptyString \/ startswith line "#" = true) lines).
  { intros lines Hlines. eapply Forall_impl; [exact Hlines | auto]. }
  destruct (decide (ext self = ".R")) as [Hr|Hr].
  - rewrite code_to_text_by_format. cbv zeta. do 2 (case_decide; try done).
    unfold code_to_r. eexists _, _. split; [reflexivity|].
    match goal with
    | |- Forall _ ?lines /\ _ =>
        assert (Hall : Forall (fun line => startswith line "#" = true) lines)
    end.
    { apply Forall_app. split; [|done]. destruct (truthy _); by repeat constructor. }
    split; [by apply Hweak | done].
  - destruct (explicit_start_marker (set_metadata self (snd (resolve_active self)))
                (script_body self)) eqn:Hstart.
    + rewrite (code_to_text_py_explicit self Hrmd Hr Hstart). cbv zeta.
      eexists _, _. split; [reflexivity|]. split; [|done].
      constructor; [by right|]. apply Forall_app. split; [by apply Hweak|].
      apply Forall_app. split; [|by repeat constructor].
      apply Forall_forall. intros line [-> _]%elem_of_replicate. by left.
    + destruct (code_to_text_py_implicit_eq self Hrmd Hr Hstart) as [_ ->].
      eexists _, _. split; [reflexivity|]. split; [by apply Hweak | done].
Qed.

(** X11: a cell that is not code is exported by [markdown_escape] and
    keeps its metadata and its number of lines; in the script formats
    every line of the text starts with '#'. *)
Theorem cell_to_text_markdown (self : CellExporter) :
  is_code self = false ->
  cell_to_text self = Ok (markdown_escape self (source self), metadata self) /\
  length (markdown_escape self (source self)) = length (source self) /\
  (ext self <> ".Rmd" ->
   Forall (fun line => startswith line "#" = true)
          (markdown_escape self (source self))).
Proof.
  intros Hcode. unfold cell_to_text. rewrite Hcode. split; [done|].
  unfold markdown_escape. split.
  - repeat case_decide; by rewrite ?length_map.
  - intros Hrmd. repeat case_decide; [done | |].
    + apply roxygen_comment_lines.
    + apply hash_comment_lines.
Qed.

(** X12: after construction every cell but a markdown cell is code, raw
    cells included; construction changes the filtered metadata under no
    key but 'active', keeps an 'active' entry that is there, and changes
    nothing for a cell that is not raw. *)
Theorem init_is_code (cell : Cell) (default_language ext : string) :
  let self := __init__ cell default_language ext in
  let filtered := filter_metadata (c_metadata cell) in
  (is_code self = true <-> c_cell_type cell <> markdown) /\
  (forall key, key <> "active" -> metadata self !! key = filtered !! key) /\
  (forall v, filtered !! "active" = Some v -> metadata self !! "active" = Some v) /\
  (c_cell_type cell <> raw -> metadata self = filtered).
Proof.
  intros self filtered. unfold self, __init__, is_code.
  cbn [cell_type metadata]. fold filtered. unfold has_key.
  destruct (c_cell_type cell); (split; [|split; [|split]]); try done.
  - destruct (filtered !! "active") eqn:Hactive; [by rewrite Hactive|].
    by rewrite lookup_insert_eq.
  - intros key Hkey. destruct (filtered !! "active"); [done|].
    by rewrite lookup_insert_ne.
  - intros v Hv. by rewrite Hv.
Qed.

(** X13: the fenced format. The text is the opening fence with the
    options, the source lines (magic-escaped when the cell is active, never
    commented out) and the closing fence; the language rule of the script
    formats does not apply, and the only entry the export may write is
    'eval', set to False for a cell that is not active. *)
Theorem code_to_text_rmd_fenced (self : CellExporter) :
  ext self = ".Rmd" ->
  let body :=
    if is_active ".Rmd" (metadata self)
    then escape_magic (source self) (language self) else source self in
  let final :=
    if is_active "Rmd" (metadata self) then metadata self
    else <["eval" := VBool false]> (metadata self) in
  code_to_text self =
    Ok (("```{" +:+ metadata_to_rmd_options (Some (language self)) final +:+ "}")
          :: body ++ ["```"], final) /\
  (forall key, key <> "eval" -> final !! key = metadata self !! key) /\
  (is_active "Rmd" (metadata self) = false -> final !! "eval" = Some (VBool false)).
Proof.
  intros He body final. split; [|split].
  - rewrite code_to_text_by_format, (resolve_active_Rmd self He). cbv zeta.
    cbn [fst snd]. case_decide; [|done]. reflexivity.
  - intros key Hkey. subst final. destruct (is_active "Rmd" _); [done|].
    by rewrite lookup_insert_ne.
  - intros Hinactive. subst final. rewrite Hinactive. apply lookup_insert_eq.
Qed.

(** X14: the R script format. No directive line is written when the
    options string is empty: the text is then the body alone; otherwise one
    line "#+ " with the options comes before the body. The options are
    serialized without a language. *)
Theorem code_to_text_r_directive (self : CellExporter) :
  ext self = ".R" ->
  let md := snd (resolve_active self) in
  let final := if is_active "R" md then md else <["eval" := VBool false]> md in
  let options := metadata_to_rmd_options None final in
  (options = EmptyString -> code_to_text self = Ok (script_body self, final)) /\
  (options <> EmptyString ->
   code_to_text self = Ok (("#+ " +:+ options) :: script_body self, final)).
Proof.
  intros He md final options.
  assert (Heq : code_to_text self = Ok (code_to_r (script_body self) md)).
  { rewrite code_to_text_by_format. cbv zeta. rewrite He.
    by repeat (case_decide; try done). }
  rewrite Heq. unfold code_to_r. fold final. fold options.
  split; intros Hopt; [by rewrite Hopt|]. by destruct options.
Qed.

(** X15: the two outcomes of [code_to_py]. It raises, a [KeyError] on
    'endofcell', exactly on a mapping that is not empty and lacks the key.
    When it returns, the mapping it leaves is the one it got with at most
    'endofcell' deleted, and it never holds the default token "-" under
    that key; the text has the lines of the source alone, or these and the
    two marker lines and the padding. *)
Theorem code_to_py_outcome (source : list string) (metadata : gmap string value)
    (padlines : Z) :
  match code_to_py source metadata padlines with
  | KeyError key =>
      key = "endofcell" /\ metadata <> ∅ /\ metadata !! "endofcell" = None
  | Ok (lines, final) =>
      (metadata = ∅ \/ is_Some (metadata !! "endofcell")) /\
      final ⊆ metadata /\
      (forall key, key <> "endofcell" -> final !! key = metadata !! key) /\
      final !! "endofcell" <> Some (VStr "-") /\
      length lines =
        (if decide (metadata = ∅) then length source
         else length source + 2 + Z.to_nat padlines)%nat
  end.
Proof.
  unfold code_to_py. case_decide as Hempty.
  - subst metadata. repeat split; [by left | done..].
  - destruct (metadata !! "endofcell") as [endofcell|] eqn:Hkey; [|done].
    split; [by right|].
    rewrite !length_app, length_replicate. cbn [length].
    destruct (value_is_str endofcell "-") eqn:Hdash.
    + repeat split; [apply delete_subseteq | | | lia].
      * intros key Hne. by rewrite lookup_delete_ne.
      * by rewrite lookup_delete_eq.
    + repeat split; [done | | lia]. rewrite Hkey. intros [= ->]. done.
Qed.

End FormatProperties.

Section ExportSamples.
#[local] Existing Instance sample_collaborators.

Lemma code_to_text_py_end_marker_witness :
  exists options final,
    code_to_text tagged_cell =
    Ok ((("# + " +:+ options) :: script_body tagged_cell
           ++ replicate (Z.to_nat (padlines tagged_cell)) EmptyString)
          ++ ["# " +:+ py_endofcell_marker (script_body tagged_cell)], final).
Proof.
  assert (Hrmd : ext tagged_cell <> ".Rmd") by discriminate.
  assert (Hr : ext tagged_cell <> ".R") by discriminate.
  assert (Hstart : explicit_start_marker
                     (set_metadata tagged_cell (snd (resolve_active tagged_cell)))
                     (script_body tagged_cell) = true) by (vm_compute; reflexivity).
  destruct (code_to_text_py_end_marker tagged_cell Hrmd Hr Hstart)
    as (options & final & Heq & _).
  by exists options, final.
Defined.

(** The text of that cell. *)
Example code_to_text_tagged_cell :
  match code_to_text tagged_cell with
  | Ok (lines, _) => lines
  | KeyError _ => []
  end = ["# + {endofcell, tags}"; "x = 1"; "# -"; EmptyString; "y = 2"; EmptyString; "# --"].
Proof. vm_compute. reflexivity. Qed.

Lemma code_to_text_py_endofcell_witness :
  exists lines final,
    code_to_text tagged_cell = Ok (lines, final) /\
    final !! "endofcell" = Some (VStr "--").
Proof.
  assert (Hrmd : ext tagged_cell <> ".Rmd") by discriminate.
  assert (Hr : ext tagged_cell <> ".R") by discriminate.
  destruct (code_to_text_py_endofcell tagged_cell Hrmd Hr)
    as (lines & final & Heq & Hkey & _).
  exists lines, final. split; [done|]. rewrite Hkey. vm_compute. reflexivity.
Defined.

Lemma code_to_text_inactive_commented_witness :
  exists lines final,
    code_to_text frozen_cell = Ok (lines, final) /\
    Forall (fun line => startswith line "#" = true) lines.
Proof.
  assert (Hrmd : ext frozen_cell <> ".Rmd") by discriminate.
  assert (Hinactive : fst (resolve_active frozen_cell) = false)
    by (vm_compute; reflexivity).
  destruct (code_to_text_inactive_commented frozen_cell Hrmd Hinactive)
    as (lines & final & Heq & _ & Hall).
  exists lines, final. split; [done|]. by apply Hall.
Defined.

Lemma cell_to_text_markdown_witness :
  cell_to_text text_cell = Ok (markdown_escape text_cell (source text_cell), ∅) /\
  Forall (fun line => startswith line "#" = true)
         (markdown_escape text_cell (source text_cell)).
Proof.
  destruct (cell_to_text_markdown text_cell eq_refl) as (Heq & _ & Hall).
  split; [done|]. apply Hall. discriminate.
Defined.

Lemma code_to_text_rmd_fenced_witness :
  exists options,
    code_to_text chunk =
    Ok (("```{" +:+ options +:+ "}") :: ["%%R"; "ls()"] ++ ["```"],
        {[ "echo" := VBool true ]}).
Proof.
  destruct (code_to_text_rmd_fenced chunk eq_refl) as (Heq & _).
  exists "R echo". rewrite Heq. vm_compute. reflexivity.
Defined.

Lemma code_to_text_r_directive_witness :
  exists options final,
    code_to_text frozen_cell = Ok (("#+ " +:+ options) :: script_body frozen_cell, final).
Proof.
  destruct (code_to_text_r_directive frozen_cell eq_refl) as (_ & Hdirective).
  eexists _, _. apply Hdirective. vm_compute. discriminate.
Defined.

End ExportSamples.
